(** * Authentication resolution of the navigator client

    A shallow embedding of [src/client/components/Auth.tsx]: the
    [AuthWrapper] component reads the browser token, asks the auth service
    about it, fetches the user profile and stores one [AuthState] in the
    component state.  The asynchronous method [fetchTokenInfo] is embedded
    in a small monad threading the component state and a log of the
    interactions, with JavaScript exceptions as abnormal completions. *)

From Stdlib Require Import String ZArith List Bool.
Import ListNotations.
Open Scope string_scope.
Set Warnings "-register-all".

(** ** Data model *)

(** Modelled from the spec: a JavaScript value as the collaborators hand it
    over; [utils/UserModel] and the provider specific part of [TokenInfo] are
    not part of the sources at hand, so records are kept as property lists. *)
Inductive JsValue : Type :=
| JsUndefined
| JsNull
| JsBoolean (b : bool)
| JsNumber (n : Z)
| JsString (s : string)
| JsObject (props : list (string * JsValue)).

(** Modelled from the spec: [TokenInfo] of [utils/AuthService], "at minimum an
    identifying username and any provider-specific fields".  The component
    only reads [tokenInfo.user]. *)
Record TokenInfo : Type := mkTokenInfo {
  user : string;
  providerFields : list (string * JsValue)
}.

(** Modelled from the spec: [UserProfile] of [utils/UserModel], an opaque
    profile record. *)
Definition UserProfile : Type := list (string * JsValue).

(** [AuthInfo]: the current authentication information. *)
Record AuthInfo : Type := mkAuthInfo {
  token : string;
  tokenInfo : TokenInfo
}.

Inductive AuthenticationStatus : Type :=
| NONE
| AUTHENTICATED
| UNAUTHENTICATED.

(** [AuthenticationState], the union discriminated by its [status]. *)
Inductive AuthenticationState : Type :=
| AuthenticationStateNone
| AuthenticationStateAuthenticated (authInfo : AuthInfo) (userProfile : UserProfile)
| AuthenticationStateUnauthenticated.

Definition status (s : AuthenticationState) : AuthenticationStatus :=
  match s with
  | AuthenticationStateNone => NONE
  | AuthenticationStateAuthenticated _ _ => AUTHENTICATED
  | AuthenticationStateUnauthenticated => UNAUTHENTICATED
  end.

Definition AuthenticationStatus_eqb (a b : AuthenticationStatus) : bool :=
  match a, b with
  | NONE, NONE | AUTHENTICATED, AUTHENTICATED
  | UNAUTHENTICATED, UNAUTHENTICATED => true
  | _, _ => false
  end.

(** Modelled from the spec: [AsyncProcess] of [utils/AsyncProcess], the
    four-phase envelope Idle / Pending / Succeeded(value) / Failed(message).
    The component uses the members NONE, SUCCESS and ERROR. *)
Inductive AsyncProcess (T : Type) : Type :=
| AsyncProcessNone
| AsyncProcessPending
| AsyncProcessSuccess (value : T)
| AsyncProcessError (message : string).

Arguments AsyncProcessNone {T}.
Arguments AsyncProcessPending {T}.
Arguments AsyncProcessSuccess {T} value.
Arguments AsyncProcessError {T} message.

Definition AuthState : Type := AsyncProcess AuthenticationState.

Definition isTerminal (a : AuthState) : bool :=
  match a with
  | AsyncProcessSuccess _ | AsyncProcessError _ => true
  | _ => false
  end.

Definition isPending (a : AuthState) : bool :=
  match a with
  | AsyncProcessPending => true
  | _ => false
  end.

(** ** Exceptions *)

(** Modelled from the spec: the payload [ex.error] of an [AuthError] of
    [utils/AuthService], "a classified failure carrying
    {code: integer, message: string}". *)
Record AuthErrorInfo : Type := mkAuthErrorInfo {
  appcode : Z;
  message : string
}.

(** What a [catch (ex)] can receive, split the way the handler inspects it:
    [ex instanceof AuthError], else [ex instanceof Error], else any other
    thrown value. *)
Inductive Exception : Type :=
| ThrownAuthError (error : AuthErrorInfo)
| ThrownError (msg : string)
| ThrownValue (v : JsValue).

(** ** The collaborators *)

(** How an awaited call completes. *)
Inductive Completion (A : Type) : Type :=
| Normal (a : A)
| Throw (ex : Exception).

Arguments Normal {A} a.
Arguments Throw {A} ex.

(** The environment of one resolution: what the browser holds and how the
    two services answer.  [null] is [None]. *)
Record World : Type := mkWorld {
  browserToken : option string;
  tokenInfoReply : string -> Completion (option TokenInfo);
  profileReply : string -> string -> Completion (option UserProfile)
}.

(** What an observer of the component can see happen. *)
Inductive Event : Type :=
| ReadToken
| CallGetTokenInfo (tok : string)
| CallFetchProfile (tok : string) (username : string)
| SetState (a : AuthState).

(** [AuthWrapperState] together with the log of interactions. *)
Record Component : Type := mkComponent {
  authState : AuthState;
  log : list Event
}.

(** ** The monad of component methods *)

Definition M (A : Type) : Type := World -> Component -> Completion A * Component.

Definition ret {A} (a : A) : M A := fun _ c => (Normal a, c).

Definition bind {A B} (m : M A) (k : A -> M B) : M B :=
  fun w c =>
    match m w c with
    | (Normal a, c') => k a w c'
    | (Throw ex, c') => (Throw ex, c')
    end.

Definition throw {A} (ex : Exception) : M A := fun _ c => (Throw ex, c).

Definition tryCatch {A} (body : M A) (handler : Exception -> M A) : M A :=
  fun w c =>
    match body w c with
    | (Normal a, c') => (Normal a, c')
    | (Throw ex, c') => handler ex w c'
    end.

Declare Scope js_scope.
Delimit Scope js_scope with js.
Notation "'let*' x ':=' m 'in' k" := (bind m (fun x => k))
  (at level 10, x name, m at level 100, k at level 200) : js_scope.
Notation "m ';;' k" := (bind m (fun _ => k))
  (at level 100, k at level 200, right associativity) : js_scope.
Open Scope js_scope.

(** Record an interaction in the log. *)
Definition emit (e : Event) : M unit :=
  fun _ c => (Normal tt, {| authState := authState c; log := log c ++ [e] |}).

(** Suspend until a collaborator answers: resume with its value or its
    exception. *)
Definition await {A} (reply : World -> Completion A) : M A :=
  fun w c => (reply w, c).

(** [this.setState({ authState })] *)
Definition setState (a : AuthState) : M unit :=
  fun _ c => (Normal tt, {| authState := a; log := log c ++ [SetState a] |}).

(** [BrowserAuth.getToken()]: a synchronous read that answers the token or
    [null] and does not raise. *)
Definition BrowserAuth_getToken : M (option string) :=
  emit ReadToken ;;
  await (fun w => Normal (browserToken w)).

(** [await new AuthService(token).getTokenInfo()] *)
Definition AuthService_getTokenInfo (tok : string) : M (option TokenInfo) :=
  emit (CallGetTokenInfo tok) ;;
  await (fun w => tokenInfoReply w tok).

(** [await new UserModel(token).fetchProfile(username)] *)
Definition UserModel_fetchProfile (tok username : string) : M (option UserProfile) :=
  emit (CallFetchProfile tok username) ;;
  await (fun w => profileReply w tok username).

(** ** The context *)

(** [AuthContext]: the value consumers read when no provider is above them,
    [React.createContext<AuthState>({ status: AsyncProcessStatus.NONE })]. *)
Definition AuthContext_defaultValue : AuthState := AsyncProcessNone.

(** The element [<AuthContext.Provider value={...}>{children}</...>]. *)
Record ProviderElement (Children : Type) : Type := mkProviderElement {
  value : AuthState;
  children : Children
}.

Arguments mkProviderElement {Children} value children.
Arguments value {Children} p.
Arguments children {Children} p.

(** ** The component *)

Module AuthWrapper.

(** [constructor]: the auth state starts as NONE. *)
Definition constructor : Component :=
  {| authState := AsyncProcessNone; log := [] |}.

Definition fetchUserProfile (tok username : string) : M UserProfile :=
  let* userProfile := UserModel_fetchProfile tok username in
  match userProfile with
  | None => throw (ThrownError ("User not found: " ++ username))
  | Some p => ret p
  end.

Definition unauthenticatedState : AuthState :=
  AsyncProcessSuccess AuthenticationStateUnauthenticated.

Definition errorState (message : string) : AuthState :=
  AsyncProcessError message.

Definition fetchTokenInfo : M unit :=
  let* tok := BrowserAuth_getToken in
  match tok with
  | None => setState unauthenticatedState
  | Some tok =>
      tryCatch
        (let* tokenInfo := AuthService_getTokenInfo tok in
         match tokenInfo with
         | None => setState unauthenticatedState
         | Some tokenInfo =>
             let* userProfile := fetchUserProfile tok (user tokenInfo) in
             setState
               (AsyncProcessSuccess
                  (AuthenticationStateAuthenticated
                     {| token := tok; tokenInfo := tokenInfo |}
                     userProfile))
         end)
        (fun ex =>
           match ex with
           | ThrownAuthError error =>
               if (appcode error =? 10020)%Z
               then setState unauthenticatedState
               else setState (errorState (message error))
           | ThrownError msg => setState (errorState msg)
           | ThrownValue _ => setState (errorState "Unknown Error")
           end)
  end.

Definition componentDidMount : M unit := fetchTokenInfo.

(** [render]: provide [this.state.authState] to [this.props.children]. *)
Definition render {Children : Type} (props_children : Children) (c : Component)
  : ProviderElement Children :=
  {| value := authState c; children := props_children |}.

End AuthWrapper.

Import AuthWrapper.

(** ** Running one resolution *)

(** Mounting a freshly constructed component in world [w]. *)
Definition resolve (w : World) : Completion unit * Component :=
  componentDidMount w constructor.

(** The envelope the consumers see once the resolution has completed. *)
Definition envelope (w : World) : AuthState := authState (snd (resolve w)).

(** The envelopes written during the resolution, in order. *)
Fixpoint writes (l : list Event) : list AuthState :=
  match l with
  | [] => []
  | SetState a :: l' => a :: writes l'
  | _ :: l' => writes l'
  end.

(** The component at each point at which the run can be observed before it
    writes: once the token has been read, once the auth service has answered
    and once [fetchUserProfile] has completed. *)
Definition afterTokenRead (w : World) : Component :=
  snd (BrowserAuth_getToken w constructor).

Definition afterVerification (w : World) (tok : string) : Component :=
  snd (AuthService_getTokenInfo tok w (afterTokenRead w)).

Definition afterProfileFetch (w : World) (tok username : string) : Component :=
  snd (fetchUserProfile tok username w (afterVerification w tok)).

(** The states the component goes through, from construction on, before its
    [setState]: the later ones exist only when the run gets that far. *)
Definition statesBeforeWrite (w : World) : list Component :=
  constructor :: afterTokenRead w ::
  match browserToken w with
  | None => []
  | Some tok =>
      afterVerification w tok ::
      match tokenInfoReply w tok with
      | Normal (Some ti) => [afterProfileFetch w tok (user ti)]
      | _ => []
      end
  end.

(** The state on which the [setState] of the run is performed. *)
Definition beforeWrite (w : World) : Component :=
  last (statesBeforeWrite w) constructor.

Definition isVerificationCall (e : Event) : bool :=
  match e with CallGetTokenInfo _ => true | _ => false end.

Definition isProfileCall (e : Event) : bool :=
  match e with CallFetchProfile _ _ => true | _ => false end.

Definition verificationCalls (w : World) : nat :=
  length (filter isVerificationCall (log (snd (resolve w)))).

Definition profileCalls (w : World) : nat :=
  length (filter isProfileCall (log (snd (resolve w)))).

(** When a collaborator raises [ex] during the resolution of [w]: either the
    verification of the stored token does, or the verification succeeds with
    metadata and the profile fetch for its subject does. *)
Definition raises (w : World) (ex : Exception) : Prop :=
  exists tok,
    browserToken w = Some tok /\
    (tokenInfoReply w tok = Throw ex \/
     exists ti, tokenInfoReply w tok = Normal (Some ti) /\
                profileReply w tok (user ti) = Throw ex).

(** The envelopes written are PENDING first and then one terminal envelope. *)
Definition writesPendingThenTerminal (w : World) : Prop :=
  exists a, writes (log (snd (resolve w))) = [AsyncProcessPending; a] /\
            isTerminal a = true.

(** The variants of [s] that are active: the members of the status enum its
    discriminant is equal to. *)
Definition activeVariants (s : AuthenticationState) : list AuthenticationStatus :=
  filter (AuthenticationStatus_eqb (status s)) [NONE; AUTHENTICATED; UNAUTHENTICATED].

(** ** Scenarios *)

Definition noProfile : string -> string -> Completion (option UserProfile) :=
  fun _ _ => Normal None.

Definition world_absent : World :=
  {| browserToken := None;
     tokenInfoReply := fun _ => Normal None;
     profileReply := noProfile |}.

Definition world_alice : World :=
  {| browserToken := Some "abc123";
     tokenInfoReply := fun _ => Normal (Some {| user := "alice"; providerFields := [] |});
     profileReply := fun _ u =>
       if String.eqb u "alice" then Normal (Some [("name", JsString "Alice")])
       else Normal None |}.

Definition world_bob : World :=
  {| browserToken := Some "xyz";
     tokenInfoReply := fun _ => Normal (Some {| user := "bob"; providerFields := [] |});
     profileReply := noProfile |}.

Definition world_rejected : World :=
  {| browserToken := Some "xyz";
     tokenInfoReply := fun _ => Normal None;
     profileReply := noProfile |}.

Definition world_raising (ex : Exception) : World :=
  {| browserToken := Some "xyz";
     tokenInfoReply := fun _ => Throw ex;
     profileReply := noProfile |}.

Definition world_profile_raising (ex : Exception) : World :=
  {| browserToken := Some "xyz";
     tokenInfoReply := fun _ => Normal (Some {| user := "bob"; providerFields := [] |});
     profileReply := fun _ _ => Throw ex |}.

Definition expired : Exception :=
  ThrownAuthError {| appcode := 10020; message := "expired" |}.

Definition server_down : Exception :=
  ThrownAuthError {| appcode := 500; message := "server down" |}.

(** Two worlds that answer alike wherever the resolution looks: the stored
    token, the verification of that token, and the profile of the subject the
    verification names. *)
Definition agreeOnConsulted (w w' : World) : Prop :=
  browserToken w = browserToken w' /\
  forall tok, browserToken w = Some tok ->
    tokenInfoReply w tok = tokenInfoReply w' tok /\
    forall ti, tokenInfoReply w tok = Normal (Some ti) ->
      profileReply w tok (user ti) = profileReply w' tok (user ti).

Definition isTokenRead (e : Event) : bool :=
  match e with ReadToken => true | _ => false end.

(** A world that agrees with [world_alice] on what is consulted and differs
    everywhere else. *)
Definition world_alice_elsewhere : World :=
  {| browserToken := Some "abc123";
     tokenInfoReply := fun t =>
       if String.eqb t "abc123"
       then Normal (Some {| user := "alice"; providerFields := [] |})
       else Throw (ThrownError "no such token");
     profileReply := fun t u =>
       if (String.eqb t "abc123" && String.eqb u "alice")%bool
       then Normal (Some [("name", JsString "Alice")])
       else Throw (ThrownValue JsNull) |}.

(** ** The paths through [fetchTokenInfo] *)

Local Ltac shape_with calls :=
  solve [eexists _, calls; split; [reflexivity | split; reflexivity]].

Section Paths.

Variable w : World.

Lemma resolve_unfold :
  resolve w =
  match browserToken w with
  | None => setState unauthenticatedState w {| authState := AsyncProcessNone; log := [ReadToken] |}
  | Some tok =>
      match tokenInfoReply w tok with
      | Normal None =>
          setState unauthenticatedState w
            {| authState := AsyncProcessNone; log := [ReadToken; CallGetTokenInfo tok] |}
      | Normal (Some ti) =>
          let c := {| authState := AsyncProcessNone;
                      log := [ReadToken; CallGetTokenInfo tok;
                              CallFetchProfile tok (user ti)] |} in
          match profileReply w tok (user ti) with
          | Normal None => setState (errorState ("User not found: " ++ user ti)) w c
          | Normal (Some p) =>
              setState (AsyncProcessSuccess
                          (AuthenticationStateAuthenticated
                             {| token := tok; tokenInfo := ti |} p)) w c
          | Throw (ThrownAuthError e) =>
              if (appcode e =? 10020)%Z then setState unauthenticatedState w c
              else setState (errorState (message e)) w c
          | Throw (ThrownError m) => setState (errorState m) w c
          | Throw (ThrownValue _) => setState (errorState "Unknown Error") w c
          end
      | Throw ex =>
          let c := {| authState := AsyncProcessNone;
                      log := [ReadToken; CallGetTokenInfo tok] |} in
          match ex with
          | ThrownAuthError e =>
              if (appcode e =? 10020)%Z then setState unauthenticatedState w c
              else setState (errorState (message e)) w c
          | ThrownError m => setState (errorState m) w c
          | ThrownValue _ => setState (errorState "Unknown Error") w c
          end
      end
  end.
Proof.
  unfold resolve, componentDidMount, fetchTokenInfo, BrowserAuth_getToken,
    AuthService_getTokenInfo, fetchUserProfile, UserModel_fetchProfile,
    tryCatch, bind, emit, await, throw, ret, constructor.
  cbn.
  destruct (browserToken w) as [tok|]; [|reflexivity].
  destruct (tokenInfoReply w tok) as [[ti|]|ex]; cbn.
  - destruct (profileReply w tok (user ti)) as [[p|]|[e|m|v]]; cbn;
      try reflexivity.
    destruct (appcode e =? 10020)%Z; reflexivity.
  - reflexivity.
  - destruct ex as [e|m|v]; try reflexivity.
    destruct (appcode e =? 10020)%Z; reflexivity.
Qed.

Lemma resolve_no_token :
  browserToken w = None ->
  resolve w = (Normal tt,
               {| authState := unauthenticatedState;
                  log := [ReadToken; SetState unauthenticatedState] |}).
Proof. intros H. rewrite resolve_unfold, H. reflexivity. Qed.

Lemma resolve_no_metadata tok :
  browserToken w = Some tok ->
  tokenInfoReply w tok = Normal None ->
  resolve w = (Normal tt,
               {| authState := unauthenticatedState;
                  log := [ReadToken; CallGetTokenInfo tok;
                          SetState unauthenticatedState] |}).
Proof. intros H1 H2. rewrite resolve_unfold, H1, H2. reflexivity. Qed.

Lemma resolve_invalid_code tok e :
  browserToken w = Some tok ->
  tokenInfoReply w tok = Throw (ThrownAuthError e) ->
  appcode e = 10020%Z ->
  resolve w = (Normal tt,
               {| authState := unauthenticatedState;
                  log := [ReadToken; CallGetTokenInfo tok;
                          SetState unauthenticatedState] |}).
Proof.
  intros H1 H2 H3. rewrite resolve_unfold, H1, H2. cbn.
  rewrite H3. reflexivity.
Qed.

Lemma resolve_other_code tok e :
  browserToken w = Some tok ->
  tokenInfoReply w tok = Throw (ThrownAuthError e) ->
  appcode e <> 10020%Z ->
  resolve w = (Normal tt,
               {| authState := errorState (message e);
                  log := [ReadToken; CallGetTokenInfo tok;
                          SetState (errorState (message e))] |}).
Proof.
  intros H1 H2 H3. rewrite resolve_unfold, H1, H2. cbn.
  apply Z.eqb_neq in H3. rewrite H3. reflexivity.
Qed.

Lemma resolve_profile_missing tok ti :
  browserToken w = Some tok ->
  tokenInfoReply w tok = Normal (Some ti) ->
  profileReply w tok (user ti) = Normal None ->
  resolve w = (Normal tt,
               {| authState := errorState ("User not found: " ++ user ti);
                  log := [ReadToken; CallGetTokenInfo tok;
                          CallFetchProfile tok (user ti);
                          SetState (errorState ("User not found: " ++ user ti))] |}).
Proof. intros H1 H2 H3. rewrite resolve_unfold, H1, H2. cbn. rewrite H3. reflexivity. Qed.

Lemma resolve_authenticated tok ti p :
  browserToken w = Some tok ->
  tokenInfoReply w tok = Normal (Some ti) ->
  profileReply w tok (user ti) = Normal (Some p) ->
  let a := AsyncProcessSuccess
             (AuthenticationStateAuthenticated {| token := tok; tokenInfo := ti |} p) in
  resolve w = (Normal tt,
               {| authState := a;
                  log := [ReadToken; CallGetTokenInfo tok;
                          CallFetchProfile tok (user ti); SetState a] |}).
Proof. intros H1 H2 H3. rewrite resolve_unfold, H1, H2. cbn. rewrite H3. reflexivity. Qed.

(** Every run completes normally after exactly one [setState], whose argument
    is the final auth state. *)
Lemma resolve_shape :
  exists a calls,
    resolve w = (Normal tt, {| authState := a; log := calls ++ [SetState a] |}) /\
    writes calls = [] /\ isTerminal a = true.
Proof.
  rewrite resolve_unfold.
  destruct (browserToken w) as [tok|]; [|shape_with [ReadToken]].
  destruct (tokenInfoReply w tok) as [[ti|]|[e|m|v]]; cbn;
    try shape_with [ReadToken; CallGetTokenInfo tok].
  - destruct (profileReply w tok (user ti)) as [[p|]|[e|m|v]];
      try shape_with [ReadToken; CallGetTokenInfo tok; CallFetchProfile tok (user ti)].
    destruct (appcode e =? 10020)%Z;
      shape_with [ReadToken; CallGetTokenInfo tok; CallFetchProfile tok (user ti)].
  - destruct (appcode e =? 10020)%Z; shape_with [ReadToken; CallGetTokenInfo tok].
Qed.

End Paths.

Lemma writes_app l1 l2 : writes (l1 ++ l2) = (writes l1 ++ writes l2)%list.
Proof.
  induction l1 as [|e l1 IH]; [reflexivity|].
  destruct e; cbn; rewrite IH; reflexivity.
Qed.

(** ** How raised exceptions are classified *)

Lemma envelope_eq w r c : resolve w = (r, c) -> envelope w = authState c.
Proof. unfold envelope. intros ->. reflexivity. Qed.

Lemma envelope_raises_AuthError w e :
  raises w (ThrownAuthError e) ->
  envelope w = if (appcode e =? 10020)%Z then unauthenticatedState
               else errorState (message e).
Proof.
  intros (tok & Htok & [Hv | (ti & Hv & Hp)]);
    unfold envelope; rewrite resolve_unfold, Htok, Hv; cbn;
    try rewrite Hp; destruct (appcode e =? 10020)%Z; reflexivity.
Qed.

Lemma envelope_raises_Error w m :
  raises w (ThrownError m) -> envelope w = errorState m.
Proof.
  intros (tok & Htok & [Hv | (ti & Hv & Hp)]);
    unfold envelope; rewrite resolve_unfold, Htok, Hv; cbn;
    try rewrite Hp; reflexivity.
Qed.

Lemma envelope_raises_value w v :
  raises w (ThrownValue v) -> envelope w = errorState "Unknown Error".
Proof.
  intros (tok & Htok & [Hv | (ti & Hv & Hp)]);
    unfold envelope; rewrite resolve_unfold, Htok, Hv; cbn;
    try rewrite Hp; reflexivity.
Qed.

Lemma raises_verification ex : raises (world_raising ex) ex.
Proof. exists "xyz". split; [reflexivity | left; reflexivity]. Defined.

Lemma raises_profile ex : raises (world_profile_raising ex) ex.
Proof.
  exists "xyz". split; [reflexivity | right].
  exists {| user := "bob"; providerFields := [] |}. split; reflexivity.
Defined.

(** ** Outcomes of the resolution *)

(** C1: when the token is present and the auth service raises an [AuthError]
    whose appcode is 10020, the resolution completes normally with
    SUCCESS(UNAUTHENTICATED): not an ERROR envelope, and the same envelope as
    any run in which the service answers [null] for that token. *)
Theorem invalid_token_code_unauthenticated :
  forall (w : World) (tok msg : string),
    browserToken w = Some tok ->
    tokenInfoReply w tok =
      Throw (ThrownAuthError {| appcode := 10020; message := msg |}) ->
    fst (resolve w) = Normal tt /\
    envelope w = AsyncProcessSuccess AuthenticationStateUnauthenticated /\
    (forall m, envelope w <> AsyncProcessError m) /\
    (forall w', browserToken w' = Some tok ->
                tokenInfoReply w' tok = Normal None ->
                envelope w' = envelope w).
Proof.
  intros w tok msg Htok Hv.
  pose proof (resolve_invalid_code w tok _ Htok Hv eq_refl) as R.
  assert (E : envelope w = unauthenticatedState) by (apply (envelope_eq _ _ _ R)).
  rewrite R, E. repeat split.
  - discriminate.
  - intros w' Htok' Hv'.
    apply (envelope_eq _ _ _ (resolve_no_metadata w' tok Htok' Hv')).
Qed.

Lemma invalid_token_code_unauthenticated_witness :
  browserToken (world_raising expired) = Some "xyz" /\
  tokenInfoReply (world_raising expired) "xyz" = Throw expired /\
  envelope (world_raising expired) = AsyncProcessSuccess AuthenticationStateUnauthenticated.
Proof.
  split; [reflexivity | split; [reflexivity |]].
  exact (proj1 (proj2 (invalid_token_code_unauthenticated
                         (world_raising expired) "xyz" "expired" eq_refl eq_refl))).
Defined.

(** C2: when the token validates with metadata and the profile fetch answers
    [null], the resolution completes with ERROR whose message is exactly
    "User not found: " followed by [tokenInfo.user]; the envelope is an
    error, not SUCCESS(UNAUTHENTICATED). *)
Theorem profile_not_found_is_error :
  forall (w : World) (tok : string) (ti : TokenInfo),
    browserToken w = Some tok ->
    tokenInfoReply w tok = Normal (Some ti) ->
    profileReply w tok (user ti) = Normal None ->
    fst (resolve w) = Normal tt /\
    envelope w = AsyncProcessError ("User not found: " ++ user ti) /\
    envelope w <> AsyncProcessSuccess AuthenticationStateUnauthenticated.
Proof.
  intros w tok ti Htok Hv Hp.
  pose proof (resolve_profile_missing w tok ti Htok Hv Hp) as R.
  rewrite (envelope_eq _ _ _ R), R. cbn.
  repeat split. discriminate.
Qed.

Lemma profile_not_found_is_error_witness :
  browserToken world_bob = Some "xyz" /\
  envelope world_bob = AsyncProcessError "User not found: bob".
Proof.
  split; [reflexivity |].
  exact (proj1 (proj2 (profile_not_found_is_error world_bob "xyz"
                         {| user := "bob"; providerFields := [] |}
                         eq_refl eq_refl eq_refl))).
Defined.

(** C3 as worded fails: in the scenario of a valid token with a profile the
    component never writes PENDING. *)
Lemma pending_is_not_written : ~ writesPendingThenTerminal world_alice.
Proof.
  intros (a & Hw & _). cbv in Hw. discriminate Hw.
Qed.

Local Ltac written :=
  solve [eexists; repeat split; repeat constructor].

(** C3, amended: every resolution performs exactly one [setState], upon
    completion: it is the last interaction of the run, and the envelope
    written is SUCCESS or ERROR and is the one the consumers end up with.
    The envelope is NONE at construction and stays NONE in every state the
    component goes through before that write, the state on which the write
    is performed included; PENDING is never written. *)
Theorem single_terminal_write :
  forall w : World,
    exists a : AuthState,
      authState constructor = AsyncProcessNone /\
      Forall (fun c => authState c = AsyncProcessNone /\ writes (log c) = [])
             (statesBeforeWrite w) /\
      resolve w = setState a w (beforeWrite w) /\
      writes (log (snd (resolve w))) = [a] /\
      isTerminal a = true /\
      envelope w = a /\
      existsb isPending (writes (log (snd (resolve w)))) = false.
Proof.
  intros w. unfold envelope. rewrite resolve_unfold.
  unfold beforeWrite, statesBeforeWrite, afterProfileFetch, afterVerification,
    afterTokenRead, fetchUserProfile, UserModel_fetchProfile,
    AuthService_getTokenInfo, BrowserAuth_getToken, bind, emit, await, throw,
    ret, constructor.
  cbn.
  destruct (browserToken w) as [tok|]; [| written].
  destruct (tokenInfoReply w tok) as [[ti|]|[e|m|v]]; cbn; try written.
  - destruct (profileReply w tok (user ti)) as [[q|]|[e|m|v]]; cbn;
      try written.
    destruct (appcode e =? 10020)%Z; written.
  - destruct (appcode e =? 10020)%Z; written.
Qed.

(** C4: when the browser holds no token, the resolution completes with
    SUCCESS(UNAUTHENTICATED) without calling the auth service or the user
    model. *)
Theorem absent_token_no_calls :
  forall w : World,
    browserToken w = None ->
    fst (resolve w) = Normal tt /\
    envelope w = AsyncProcessSuccess AuthenticationStateUnauthenticated /\
    verificationCalls w = 0 /\
    profileCalls w = 0.
Proof.
  intros w Htok. unfold verificationCalls, profileCalls.
  pose proof (resolve_no_token w Htok) as R.
  rewrite (envelope_eq _ _ _ R), R. repeat split.
Qed.

Lemma absent_token_no_calls_witness :
  browserToken world_absent = None /\
  envelope world_absent = AsyncProcessSuccess AuthenticationStateUnauthenticated /\
  verificationCalls world_absent = 0 /\
  profileCalls world_absent = 0.
Proof.
  split; [reflexivity |].
  exact (proj2 (absent_token_no_calls world_absent eq_refl)).
Defined.

(** C5: when the auth service raises an [AuthError] whose appcode is not
    10020, the resolution completes with ERROR carrying [ex.error.message]
    unchanged. *)
Theorem other_code_is_error :
  forall (w : World) (tok : string) (e : AuthErrorInfo),
    browserToken w = Some tok ->
    tokenInfoReply w tok = Throw (ThrownAuthError e) ->
    appcode e <> 10020%Z ->
    fst (resolve w) = Normal tt /\
    envelope w = AsyncProcessError (message e).
Proof.
  intros w tok e Htok Hv Hcode.
  pose proof (resolve_other_code w tok e Htok Hv Hcode) as R.
  rewrite (envelope_eq _ _ _ R), R. split; reflexivity.
Qed.

Lemma other_code_is_error_witness :
  browserToken (world_raising server_down) = Some "xyz" /\
  tokenInfoReply (world_raising server_down) "xyz" = Throw server_down /\
  envelope (world_raising server_down) = AsyncProcessError "server down".
Proof.
  split; [reflexivity | split; [reflexivity |]].
  refine (proj2 (other_code_is_error (world_raising server_down) "xyz"
                   {| appcode := 500; message := "server down" |}
                   eq_refl eq_refl _)).
  cbn. discriminate.
Defined.

(** C6: when the verification or the profile fetch raises a failure that is
    not an [AuthError], the resolution completes with ERROR carrying the
    message of the failure when it is an [Error] (the case in which the
    handler can read [ex.message]), and the literal "Unknown Error" for any
    other thrown value. *)
Theorem unclassified_failure_message :
  forall (w : World) (ex : Exception),
    raises w ex ->
    fst (resolve w) = Normal tt /\
    (forall m, ex = ThrownError m -> envelope w = AsyncProcessError m) /\
    (forall v, ex = ThrownValue v -> envelope w = AsyncProcessError "Unknown Error").
Proof.
  intros w ex Hr. split.
  - destruct (resolve_shape w) as (a & calls & R & _). rewrite R. reflexivity.
  - split.
    + intros m ->. apply envelope_raises_Error, Hr.
    + intros v ->. apply (envelope_raises_value w v), Hr.
Qed.

Lemma unclassified_failure_message_witness :
  envelope (world_raising (ThrownError "fetch failed")) = AsyncProcessError "fetch failed" /\
  envelope (world_profile_raising (ThrownError "fetch failed")) = AsyncProcessError "fetch failed" /\
  envelope (world_raising (ThrownValue (JsString "oops"))) = AsyncProcessError "Unknown Error" /\
  envelope (world_profile_raising (ThrownValue JsUndefined)) = AsyncProcessError "Unknown Error".
Proof.
  split; [| split; [| split]].
  - exact (proj1 (proj2 (unclassified_failure_message _ _
                           (raises_verification (ThrownError "fetch failed"))))
             "fetch failed" eq_refl).
  - exact (proj1 (proj2 (unclassified_failure_message _ _
                           (raises_profile (ThrownError "fetch failed"))))
             "fetch failed" eq_refl).
  - exact (proj2 (proj2 (unclassified_failure_message _ _
                           (raises_verification (ThrownValue (JsString "oops")))))
             (JsString "oops") eq_refl).
  - exact (proj2 (proj2 (unclassified_failure_message _ _
                           (raises_profile (ThrownValue JsUndefined))))
             JsUndefined eq_refl).
Defined.

(** C7: when the token validates with metadata and the profile fetch answers
    a record, the resolution completes with SUCCESS(AUTHENTICATED) holding
    the token read from the browser, the metadata answered by the auth
    service and the profile answered by the user model, as they came. *)
Theorem valid_token_authenticated :
  forall (w : World) (tok : string) (ti : TokenInfo) (p : UserProfile),
    browserToken w = Some tok ->
    tokenInfoReply w tok = Normal (Some ti) ->
    profileReply w tok (user ti) = Normal (Some p) ->
    fst (resolve w) = Normal tt /\
    envelope w =
      AsyncProcessSuccess
        (AuthenticationStateAuthenticated {| token := tok; tokenInfo := ti |} p).
Proof.
  intros w tok ti p Htok Hv Hp.
  pose proof (resolve_authenticated w tok ti p Htok Hv Hp) as R. cbv zeta in R.
  rewrite (envelope_eq _ _ _ R), R. split; reflexivity.
Qed.

Lemma valid_token_authenticated_witness :
  browserToken world_alice = Some "abc123" /\
  envelope world_alice =
    AsyncProcessSuccess
      (AuthenticationStateAuthenticated
         {| token := "abc123";
            tokenInfo := {| user := "alice"; providerFields := [] |} |}
         [("name", JsString "Alice")]).
Proof.
  split; [reflexivity |].
  exact (proj2 (valid_token_authenticated world_alice "abc123"
                  {| user := "alice"; providerFields := [] |}
                  [("name", JsString "Alice")] eq_refl eq_refl eq_refl)).
Defined.

(** C8: when the auth service answers [null] without raising, the resolution
    completes with SUCCESS(UNAUTHENTICATED). *)
Theorem absent_metadata_unauthenticated :
  forall (w : World) (tok : string),
    browserToken w = Some tok ->
    tokenInfoReply w tok = Normal None ->
    fst (resolve w) = Normal tt /\
    envelope w = AsyncProcessSuccess AuthenticationStateUnauthenticated.
Proof.
  intros w tok Htok Hv.
  pose proof (resolve_no_metadata w tok Htok Hv) as R.
  rewrite (envelope_eq _ _ _ R), R. split; reflexivity.
Qed.

Lemma absent_metadata_unauthenticated_witness :
  browserToken world_rejected = Some "xyz" /\
  tokenInfoReply world_rejected "xyz" = Normal None /\
  envelope world_rejected = AsyncProcessSuccess AuthenticationStateUnauthenticated.
Proof.
  split; [reflexivity | split; [reflexivity |]].
  exact (proj2 (absent_metadata_unauthenticated world_rejected "xyz" eq_refl eq_refl)).
Defined.

Lemma authenticated_inversion w ai p :
  envelope w = AsyncProcessSuccess (AuthenticationStateAuthenticated ai p) ->
  browserToken w = Some (token ai) /\
  tokenInfoReply w (token ai) = Normal (Some (tokenInfo ai)) /\
  profileReply w (token ai) (user (tokenInfo ai)) = Normal (Some p).
Proof.
  unfold envelope. rewrite resolve_unfold.
  destruct (browserToken w) as [tok|] eqn:Htok; [|discriminate].
  destruct (tokenInfoReply w tok) as [[ti|]|[e|m|v]] eqn:Hv; cbn;
    try discriminate.
  - destruct (profileReply w tok (user ti)) as [[q|]|[e|m|v]] eqn:Hp; cbn;
      try discriminate.
    + intros H. injection H as <- <-. cbn. rewrite Hv, Hp. repeat split.
    + destruct (appcode e =? 10020)%Z; discriminate.
  - destruct (appcode e =? 10020)%Z; discriminate.
Qed.

Lemma success_is_resolved w v :
  envelope w = AsyncProcessSuccess v -> status v <> NONE.
Proof.
  unfold envelope. rewrite resolve_unfold.
  destruct (browserToken w) as [tok|]; [|intros [= <-]; discriminate].
  destruct (tokenInfoReply w tok) as [[ti|]|[e|m|x]]; cbn;
    try discriminate; try (intros [= <-]; discriminate).
  - destruct (profileReply w tok (user ti)) as [[q|]|[e|m|x]]; cbn;
      try discriminate; try (intros [= <-]; discriminate).
    destruct (appcode e =? 10020)%Z; [intros [= <-]|]; discriminate.
  - destruct (appcode e =? 10020)%Z; [intros [= <-]|]; discriminate.
Qed.

(** C9: every resolution completes normally (no exception leaves
    [fetchTokenInfo]) with a terminal envelope; a SUCCESS envelope holds a
    state with exactly one active variant, which is not NONE; and the
    AUTHENTICATED variant is only produced when the browser held the token,
    the auth service answered the metadata and the user model answered the
    profile that the state carries. *)
Theorem terminal_envelope_invariant :
  forall w : World,
    fst (resolve w) = Normal tt /\
    isTerminal (envelope w) = true /\
    (forall v, envelope w = AsyncProcessSuccess v ->
               length (activeVariants v) = 1 /\ status v <> NONE) /\
    (forall ai p,
        envelope w = AsyncProcessSuccess (AuthenticationStateAuthenticated ai p) ->
        browserToken w = Some (token ai) /\
        tokenInfoReply w (token ai) = Normal (Some (tokenInfo ai)) /\
        profileReply w (token ai) (user (tokenInfo ai)) = Normal (Some p)).
Proof.
  intros w. destruct (resolve_shape w) as (a & calls & R & _ & Ht).
  split; [rewrite R; reflexivity |].
  split; [rewrite (envelope_eq _ _ _ R); exact Ht |].
  split.
  - intros v Hv. split.
    + destruct v; reflexivity.
    + exact (success_is_resolved w v Hv).
  - intros ai p. apply authenticated_inversion.
Qed.

Lemma terminal_envelope_invariant_witness :
  envelope world_alice =
    AsyncProcessSuccess
      (AuthenticationStateAuthenticated
         {| token := "abc123";
            tokenInfo := {| user := "alice"; providerFields := [] |} |}
         [("name", JsString "Alice")]) /\
  (browserToken world_alice = Some "abc123" /\
   tokenInfoReply world_alice "abc123" =
     Normal (Some {| user := "alice"; providerFields := [] |}) /\
   profileReply world_alice "abc123" "alice" =
     Normal (Some [("name", JsString "Alice")])).
Proof.
  split; [reflexivity |].
  exact (proj2 (proj2 (proj2 (terminal_envelope_invariant world_alice)))
           {| token := "abc123";
              tokenInfo := {| user := "alice"; providerFields := [] |} |}
           [("name", JsString "Alice")] eq_refl).
Defined.

(** C10: an [Error] raised with the empty message yields ERROR with the empty
    message, not the fallback; and an ERROR envelope reading "Unknown Error"
    only comes from a thrown value that is no [Error] at all, or from a
    failure whose own message is that very string. *)
Theorem empty_message_surfaced :
  forall (w : World) (ex : Exception),
    raises w ex ->
    (ex = ThrownError "" ->
       envelope w = AsyncProcessError "" /\
       envelope w <> AsyncProcessError "Unknown Error") /\
    (envelope w = AsyncProcessError "Unknown Error" ->
       (exists v, ex = ThrownValue v) \/
       ex = ThrownError "Unknown Error" \/
       (exists e, ex = ThrownAuthError e /\ message e = "Unknown Error")).
Proof.
  intros w ex Hr. split.
  - intros ->. rewrite (envelope_raises_Error w "" Hr).
    split; [reflexivity | discriminate].
  - destruct ex as [e|m|v].
    + rewrite (envelope_raises_AuthError w e Hr).
      destruct (appcode e =? 10020)%Z; [discriminate |].
      intros [= Hm]. right. right. exists e. split; [reflexivity | exact Hm].
    + rewrite (envelope_raises_Error w m Hr).
      intros [= ->]. right. left. reflexivity.
    + intros _. left. exists v. reflexivity.
Qed.

Lemma empty_message_surfaced_witness :
  raises (world_raising (ThrownError "")) (ThrownError "") /\
  envelope (world_raising (ThrownError "")) = AsyncProcessError "" /\
  raises (world_profile_raising (ThrownValue JsNull)) (ThrownValue JsNull) /\
  envelope (world_profile_raising (ThrownValue JsNull)) = AsyncProcessError "Unknown Error" /\
  ((exists v, ThrownValue JsNull = ThrownValue v) \/
   ThrownValue JsNull = ThrownError "Unknown Error" \/
   (exists e, ThrownValue JsNull = ThrownAuthError e /\ message e = "Unknown Error")).
Proof.
  split; [apply raises_verification |].
  split; [exact (proj1 (proj1 (empty_message_surfaced _ _
                                 (raises_verification (ThrownError ""))) eq_refl)) |].
  split; [apply raises_profile |].
  split; [reflexivity |].
  exact (proj2 (empty_message_surfaced _ _ (raises_profile (ThrownValue JsNull)))
           eq_refl).
Defined.

(** ** [fetchUserProfile] on its own *)

Lemma fetchUserProfile_unfold w c tok u :
  fetchUserProfile tok u w c =
  (match profileReply w tok u with
   | Normal (Some p) => Normal p
   | Normal None => Throw (ThrownError ("User not found: " ++ u))
   | Throw ex => Throw ex
   end,
   {| authState := authState c; log := log c ++ [CallFetchProfile tok u] |}).
Proof.
  unfold fetchUserProfile, UserModel_fetchProfile, bind, emit, await, throw, ret.
  cbn. destruct (profileReply w tok u) as [[p|]|ex]; reflexivity.
Qed.

(** X1: whatever the user model answers, [fetchUserProfile] leaves the auth
    state as it was and makes exactly one [fetchProfile] call, with the token
    and the username it was given. *)
Theorem fetchUserProfile_footprint :
  forall (w : World) (c : Component) (tok u : string),
    authState (snd (fetchUserProfile tok u w c)) = authState c /\
    log (snd (fetchUserProfile tok u w c)) = (log c ++ [CallFetchProfile tok u])%list /\
    writes (log (snd (fetchUserProfile tok u w c))) = writes (log c).
Proof.
  intros w c tok u. rewrite fetchUserProfile_unfold. cbn.
  split; [reflexivity | split; [reflexivity |]].
  rewrite writes_app. cbn. apply app_nil_r.
Qed.

(** X2: [fetchUserProfile] completes normally with a profile exactly when the
    user model answered that profile; a [null] answer never comes back as a
    value. *)
Theorem fetchUserProfile_returns_iff :
  forall (w : World) (c : Component) (tok u : string) (p : UserProfile),
    fst (fetchUserProfile tok u w c) = Normal p <->
    profileReply w tok u = Normal (Some p).
Proof.
  intros w c tok u p. rewrite fetchUserProfile_unfold. cbn.
  destruct (profileReply w tok u) as [[q|]|ex]; split; intros H;
    try discriminate; injection H as ->; reflexivity.
Qed.

Lemma fetchUserProfile_returns_iff_witness :
  fst (fetchUserProfile "abc123" "alice" world_alice constructor) =
    Normal [("name", JsString "Alice")].
Proof.
  exact (proj2 (fetchUserProfile_returns_iff world_alice constructor
                  "abc123" "alice" [("name", JsString "Alice")]) eq_refl).
Defined.

(** X3: [fetchUserProfile] throws [ex] exactly when the user model raised
    [ex] (passed on unchanged), or the user model answered [null] and [ex] is
    the [Error] "User not found: " followed by the username. *)
Theorem fetchUserProfile_throws_iff :
  forall (w : World) (c : Component) (tok u : string) (ex : Exception),
    fst (fetchUserProfile tok u w c) = Throw ex <->
    (profileReply w tok u = Throw ex \/
     (profileReply w tok u = Normal None /\
      ex = ThrownError ("User not found: " ++ u))).
Proof.
  intros w c tok u ex. rewrite fetchUserProfile_unfold. cbn.
  destruct (profileReply w tok u) as [[q|]|ex']; split.
  - discriminate.
  - intros [H | [H _]]; discriminate.
  - intros [= <-]. right. split; reflexivity.
  - intros [H | [_ ->]]; [discriminate | reflexivity].
  - intros [= ->]. left. reflexivity.
  - intros [[= ->] | [H _]]; [reflexivity | discriminate].
Qed.

Lemma fetchUserProfile_throws_iff_witness :
  fst (fetchUserProfile "xyz" "bob" world_bob constructor) =
    Throw (ThrownError "User not found: bob") /\
  fst (fetchUserProfile "xyz" "bob" (world_profile_raising server_down) constructor) =
    Throw server_down.
Proof.
  split.
  - exact (proj2 (fetchUserProfile_throws_iff world_bob constructor "xyz" "bob"
                    (ThrownError "User not found: bob"))
             (or_intror (conj eq_refl eq_refl))).
  - exact (proj2 (fetchUserProfile_throws_iff (world_profile_raising server_down)
                    constructor "xyz" "bob" server_down)
             (or_introl eq_refl)).
Defined.

(** ** Failures of the profile fetch *)

(** X4: the handler covers the profile fetch too: when the token validates
    and the user model then raises an [AuthError] with appcode 10020, the
    resolution completes with SUCCESS(UNAUTHENTICATED), after both calls. *)
Theorem profile_invalid_code_unauthenticated :
  forall (w : World) (tok : string) (ti : TokenInfo) (e : AuthErrorInfo),
    browserToken w = Some tok ->
    tokenInfoReply w tok = Normal (Some ti) ->
    profileReply w tok (user ti) = Throw (ThrownAuthError e) ->
    appcode e = 10020%Z ->
    fst (resolve w) = Normal tt /\
    envelope w = AsyncProcessSuccess AuthenticationStateUnauthenticated /\
    verificationCalls w = 1 /\ profileCalls w = 1.
Proof.
  intros w tok ti e Htok Hv Hp Hc.
  unfold envelope, verificationCalls, profileCalls.
  rewrite resolve_unfold, Htok, Hv. cbn. rewrite Hp, Hc. cbn.
  repeat split.
Qed.

Lemma profile_invalid_code_unauthenticated_witness :
  browserToken (world_profile_raising expired) = Some "xyz" /\
  profileReply (world_profile_raising expired) "xyz" "bob" = Throw expired /\
  envelope (world_profile_raising expired) =
    AsyncProcessSuccess AuthenticationStateUnauthenticated.
Proof.
  split; [reflexivity | split; [reflexivity |]].
  exact (proj1 (proj2 (profile_invalid_code_unauthenticated
                         (world_profile_raising expired) "xyz"
                         {| user := "bob"; providerFields := [] |}
                         {| appcode := 10020; message := "expired" |}
                         eq_refl eq_refl eq_refl eq_refl))).
Defined.

(** X5: when the token validates and the user model raises an [AuthError]
    with any other appcode, the resolution completes with ERROR carrying
    [ex.error.message]; the appcode itself is not surfaced. *)
Theorem profile_other_code_is_error :
  forall (w : World) (tok : string) (ti : TokenInfo) (e : AuthErrorInfo),
    browserToken w = Some tok ->
    tokenInfoReply w tok = Normal (Some ti) ->
    profileReply w tok (user ti) = Throw (ThrownAuthError e) ->
    appcode e <> 10020%Z ->
    fst (resolve w) = Normal tt /\
    envelope w = AsyncProcessError (message e).
Proof.
  intros w tok ti e Htok Hv Hp Hc.
  unfold envelope. rewrite resolve_unfold, Htok, Hv. cbn. rewrite Hp.
  apply Z.eqb_neq in Hc. rewrite Hc. split; reflexivity.
Qed.

Lemma profile_other_code_is_error_witness :
  browserToken (world_profile_raising server_down) = Some "xyz" /\
  profileReply (world_profile_raising server_down) "xyz" "bob" = Throw server_down /\
  envelope (world_profile_raising server_down) = AsyncProcessError "server down".
Proof.
  split; [reflexivity | split; [reflexivity |]].
  refine (proj2 (profile_other_code_is_error
                   (world_profile_raising server_down) "xyz"
                   {| user := "bob"; providerFields := [] |}
                   {| appcode := 500; message := "server down" |}
                   eq_refl eq_refl eq_refl _)).
  cbn. discriminate.
Defined.

(** ** Which runs end in which envelope *)

(** X6: the resolution ends in SUCCESS(UNAUTHENTICATED) exactly when no token
    is stored, or the auth service answers [null] for the stored token, or a
    collaborator raises an [AuthError] with appcode 10020. *)
Theorem unauthenticated_iff :
  forall w : World,
    envelope w = AsyncProcessSuccess AuthenticationStateUnauthenticated <->
    (browserToken w = None \/
     (exists tok, browserToken w = Some tok /\ tokenInfoReply w tok = Normal None) \/
     (exists e, raises w (ThrownAuthError e) /\ appcode e = 10020%Z)).
Proof.
  intros w. split.
  - unfold envelope, raises. rewrite resolve_unfold.
    destruct (browserToken w) as [tok|] eqn:Htok; [| intros _; left; reflexivity].
    destruct (tokenInfoReply w tok) as [[ti|]|[e|m|v]] eqn:Hv; cbn;
      try discriminate.
    + destruct (profileReply w tok (user ti)) as [[q|]|[e|m|v]] eqn:Hp; cbn;
        try discriminate.
      destruct (appcode e =? 10020)%Z eqn:Hc; [| discriminate].
      intros _. right. right. exists e. split; [| apply Z.eqb_eq, Hc].
      exists tok. split; [reflexivity | right]. exists ti. split; assumption.
    + intros _. right. left. exists tok. split; [reflexivity | exact Hv].
    + destruct (appcode e =? 10020)%Z eqn:Hc; [| discriminate].
      intros _. right. right. exists e. split; [| apply Z.eqb_eq, Hc].
      exists tok. split; [reflexivity | left; exact Hv].
  - intros [Htok | [(tok & Htok & Hv) | (e & Hr & Hc)]].
    + apply (envelope_eq _ _ _ (resolve_no_token w Htok)).
    + apply (envelope_eq _ _ _ (resolve_no_metadata w tok Htok Hv)).
    + rewrite (envelope_raises_AuthError w e Hr), Hc. reflexivity.
Qed.

Lemma unauthenticated_iff_witness :
  envelope (world_profile_raising expired) =
    AsyncProcessSuccess AuthenticationStateUnauthenticated.
Proof.
  apply (proj2 (unauthenticated_iff (world_profile_raising expired))).
  right. right. exists {| appcode := 10020; message := "expired" |}.
  split; [apply (raises_profile expired) | reflexivity].
Defined.

(** X7: the resolution ends in ERROR with message [m] exactly when the token
    validates and the profile is missing ([m] is "User not found: " and the
    username), or a collaborator raises an [AuthError] with another appcode
    than 10020 and error message [m], or an [Error] with message [m], or some
    other value and [m] is "Unknown Error". *)
Theorem error_iff :
  forall (w : World) (m : string),
    envelope w = AsyncProcessError m <->
    ((exists tok ti,
         browserToken w = Some tok /\
         tokenInfoReply w tok = Normal (Some ti) /\
         profileReply w tok (user ti) = Normal None /\
         m = "User not found: " ++ user ti) \/
     (exists e, raises w (ThrownAuthError e) /\
                appcode e <> 10020%Z /\ m = message e) \/
     raises w (ThrownError m) \/
     (exists v, raises w (ThrownValue v) /\ m = "Unknown Error")).
Proof.
  intros w m. split.
  - unfold envelope, raises. rewrite resolve_unfold.
    destruct (browserToken w) as [tok|] eqn:Htok; [| discriminate].
    destruct (tokenInfoReply w tok) as [[ti|]|[e|m'|v]] eqn:Hv; cbn;
      try discriminate.
    + destruct (profileReply w tok (user ti)) as [[q|]|[e|m'|v]] eqn:Hp; cbn;
        try discriminate.
      * intros [= <-]. left. exists tok, ti. repeat split; assumption.
      * destruct (appcode e =? 10020)%Z eqn:Hc; [discriminate |].
        intros [= <-]. right. left. exists e.
        split; [| split; [apply Z.eqb_neq, Hc | reflexivity]].
        exists tok. split; [reflexivity | right]. exists ti. split; assumption.
      * intros [= <-]. right. right. left.
        exists tok. split; [reflexivity | right]. exists ti. split; assumption.
      * intros [= <-]. right. right. right. exists v. split; [| reflexivity].
        exists tok. split; [reflexivity | right]. exists ti. split; assumption.
    + destruct (appcode e =? 10020)%Z eqn:Hc; [discriminate |].
      intros [= <-]. right. left. exists e.
      split; [| split; [apply Z.eqb_neq, Hc | reflexivity]].
      exists tok. split; [reflexivity | left; exact Hv].
    + intros [= <-]. right. right. left.
      exists tok. split; [reflexivity | left; exact Hv].
    + intros [= <-]. right. right. right. exists v. split; [| reflexivity].
      exists tok. split; [reflexivity | left; exact Hv].
  - intros [(tok & ti & Htok & Hv & Hp & ->)
           | [(e & Hr & Hc & ->) | [Hr | (v & Hr & ->)]]].
    + apply (envelope_eq _ _ _ (resolve_profile_missing w tok ti Htok Hv Hp)).
    + rewrite (envelope_raises_AuthError w e Hr).
      apply Z.eqb_neq in Hc. rewrite Hc. reflexivity.
    + apply (envelope_raises_Error w m Hr).
    + apply (envelope_raises_value w v Hr).
Qed.

Lemma error_iff_witness :
  envelope (world_profile_raising (ThrownValue (JsObject [("message", JsString "boom")]))) =
    AsyncProcessError "Unknown Error".
Proof.
  apply (proj2 (error_iff _ "Unknown Error")).
  right. right. right.
  exists (JsObject [("message", JsString "boom")]).
  split; [apply raises_profile | reflexivity].
Defined.

(** ** The order and the arguments of the interactions *)

Local Ltac one_call tok :=
  solve [exists [CallGetTokenInfo tok];
         split; [reflexivity | right; left; exists tok; reflexivity]].

Local Ltac two_calls tok u :=
  solve [exists [CallGetTokenInfo tok; CallFetchProfile tok u];
         split; [reflexivity | right; right; exists tok, u; reflexivity]].

(** X8: in every run the token is read first and once, then come at most one
    verification call and, after it, at most one profile call, and the single
    [setState], with the final envelope, is the last thing that happens. *)
Theorem interactions_in_order :
  forall w : World,
    exists calls,
      log (snd (resolve w)) = ReadToken :: calls ++ [SetState (envelope w)] /\
      (calls = [] \/
       (exists tok, calls = [CallGetTokenInfo tok]) \/
       (exists tok u, calls = [CallGetTokenInfo tok; CallFetchProfile tok u])).
Proof.
  intros w. unfold envelope. rewrite resolve_unfold.
  destruct (browserToken w) as [tok|].
  2:{ exists []. split; [reflexivity | left; reflexivity]. }
  destruct (tokenInfoReply w tok) as [[ti|]|[e|m|v]]; cbn.
  - destruct (profileReply w tok (user ti)) as [[q|]|[e|m|v]]; cbn;
      try two_calls tok (user ti).
    destruct (appcode e =? 10020)%Z; two_calls tok (user ti).
  - one_call tok.
  - destruct (appcode e =? 10020)%Z; one_call tok.
  - one_call tok.
  - one_call tok.
Qed.

Lemma log_cases w :
  (browserToken w = None /\
   log (snd (resolve w)) = [ReadToken; SetState (envelope w)]) \/
  (exists tok, browserToken w = Some tok /\
     (forall ti, tokenInfoReply w tok <> Normal (Some ti)) /\
     log (snd (resolve w)) =
       [ReadToken; CallGetTokenInfo tok; SetState (envelope w)]) \/
  (exists tok ti, browserToken w = Some tok /\
     tokenInfoReply w tok = Normal (Some ti) /\
     log (snd (resolve w)) =
       [ReadToken; CallGetTokenInfo tok; CallFetchProfile tok (user ti);
        SetState (envelope w)]).
Proof.
  unfold envelope. rewrite resolve_unfold.
  destruct (browserToken w) as [tok|]; [| left; split; reflexivity].
  right.
  destruct (tokenInfoReply w tok) as [[ti|]|[e|m|v]] eqn:Hv; cbn.
  - right. exists tok, ti. split; [reflexivity | split; [exact Hv |]].
    destruct (profileReply w tok (user ti)) as [[q|]|[e|m|v]]; cbn;
      try reflexivity.
    destruct (appcode e =? 10020)%Z; reflexivity.
  - left. exists tok. split; [reflexivity | split; [| reflexivity]].
    intros ti. rewrite Hv. discriminate.
  - left. exists tok. split; [reflexivity | split].
    + intros ti. rewrite Hv. discriminate.
    + destruct (appcode e =? 10020)%Z; reflexivity.
  - left. exists tok. split; [reflexivity | split; [| reflexivity]].
    intros ti. rewrite Hv. discriminate.
  - left. exists tok. split; [reflexivity | split; [| reflexivity]].
    intros ti. rewrite Hv. discriminate.
Qed.

Local Ltac in_log H :=
  cbn in H;
  repeat match type of H with
         | _ \/ _ => destruct H as [H | H]
         | False => destruct H
         end;
  try discriminate H.

(** X9: the auth service is called exactly when a token is stored, and with
    that token; the user model is called exactly when the auth service
    answered metadata for it, and with the stored token and the [user] of
    that metadata. *)
Theorem calls_carry_token_and_subject :
  forall w : World,
    (forall tok,
        In (CallGetTokenInfo tok) (log (snd (resolve w))) <->
        browserToken w = Some tok) /\
    (forall tok u,
        In (CallFetchProfile tok u) (log (snd (resolve w))) <->
        browserToken w = Some tok /\
        exists ti, tokenInfoReply w tok = Normal (Some ti) /\ u = user ti).
Proof.
  intros w.
  destruct (log_cases w)
    as [(Htok & L) | [(tok & Htok & Hv & L) | (tok & ti & Htok & Hv & L)]];
    rewrite L; split.
  - intros t. split; intros H; [in_log H | congruence].
  - intros t u. split; [intros H; in_log H | intros [H _]; congruence].
  - intros t. split; intros H.
    + in_log H. injection H as <-. exact Htok.
    + assert (t = tok) as -> by congruence. cbn. auto.
  - intros t u. split; [intros H; in_log H |].
    intros (H & ti & Hti & _). exfalso.
    assert (t = tok) as -> by congruence. exact (Hv ti Hti).
  - intros t. split; intros H.
    + in_log H. injection H as <-. exact Htok.
    + assert (t = tok) as -> by congruence. cbn. auto.
  - intros t u. split; intros H.
    + in_log H. injection H as <- <-.
      split; [exact Htok | exists ti; split; [exact Hv | reflexivity]].
    + destruct H as (H & ti' & Hti & ->).
      assert (t = tok) as -> by congruence.
      assert (ti' = ti) as -> by congruence. cbn. auto.
Qed.

Lemma calls_carry_token_and_subject_witness :
  In (CallGetTokenInfo "abc123") (log (snd (resolve world_alice))) /\
  In (CallFetchProfile "abc123" "alice") (log (snd (resolve world_alice))).
Proof.
  split.
  - exact (proj2 (proj1 (calls_carry_token_and_subject world_alice) "abc123")
             eq_refl).
  - exact (proj2 (proj2 (calls_carry_token_and_subject world_alice)
                    "abc123" "alice")
             (conj eq_refl
                (ex_intro _ {| user := "alice"; providerFields := [] |}
                   (conj eq_refl eq_refl)))).
Defined.

(** X10: the run depends only on what it consults: two worlds with the same
    stored token, the same answer of the auth service for that token and the
    same answer of the user model for that token and the subject of the
    metadata give the same result, final state and log, however they differ
    on other tokens and users. *)
Theorem resolve_local :
  forall w w' : World,
    agreeOnConsulted w w' -> resolve w = resolve w'.
Proof.
  intros w w' [Hb Ha]. rewrite !resolve_unfold, <- Hb.
  destruct (browserToken w) as [tok|]; [| reflexivity].
  destruct (Ha tok eq_refl) as [Hv Hp]. rewrite <- Hv.
  destruct (tokenInfoReply w tok) as [[ti|]|ex]; [| reflexivity | reflexivity].
  cbv zeta. rewrite <- (Hp ti eq_refl). reflexivity.
Qed.

Lemma world_alice_agreement : agreeOnConsulted world_alice world_alice_elsewhere.
Proof.
  split; [reflexivity |].
  intros tok [= <-]. split; [reflexivity |].
  intros ti [= <-]. reflexivity.
Qed.

Lemma resolve_local_witness :
  agreeOnConsulted world_alice world_alice_elsewhere /\
  resolve world_alice = resolve world_alice_elsewhere.
Proof.
  split; [exact world_alice_agreement |].
  exact (resolve_local world_alice world_alice_elsewhere world_alice_agreement).
Defined.

(** ** Invoking [fetchTokenInfo] on a component in any state *)

Lemma fetchTokenInfo_from w c :
  fetchTokenInfo w c =
  (Normal tt,
   {| authState := envelope w; log := log c ++ log (snd (resolve w)) |}).
Proof.
  unfold envelope, resolve, componentDidMount, fetchTokenInfo,
    BrowserAuth_getToken, AuthService_getTokenInfo, fetchUserProfile,
    UserModel_fetchProfile, tryCatch, bind, emit, await, throw, ret,
    setState, constructor.
  cbn.
  destruct (browserToken w) as [tok|]; cbn;
    [| rewrite <- !app_assoc; reflexivity].
  destruct (tokenInfoReply w tok) as [[ti|]|[e|m|v]]; cbn;
    try (rewrite <- !app_assoc; reflexivity).
  - destruct (profileReply w tok (user ti)) as [[q|]|[e|m|v]]; cbn;
      try (rewrite <- !app_assoc; reflexivity).
    destruct (appcode e =? 10020)%Z; cbn; rewrite <- !app_assoc; reflexivity.
  - destruct (appcode e =? 10020)%Z; cbn; rewrite <- !app_assoc; reflexivity.
Qed.

Lemma writes_resolve w : writes (log (snd (resolve w))) = [envelope w].
Proof.
  destruct (resolve_shape w) as (a & calls & R & Hc & _).
  rewrite (envelope_eq _ _ _ R), R. cbn.
  rewrite writes_app, Hc. reflexivity.
Qed.

(** X11: [fetchTokenInfo] does not read the component state: started on a
    component in any state, with any history, it completes normally, leaves
    the same envelope as on a fresh component, and adds to the log the same
    interactions. *)
Theorem fetchTokenInfo_ignores_prior_state :
  forall (w : World) (c : Component),
    fst (fetchTokenInfo w c) = Normal tt /\
    authState (snd (fetchTokenInfo w c)) = envelope w /\
    log (snd (fetchTokenInfo w c)) = (log c ++ log (snd (resolve w)))%list.
Proof.
  intros w c. rewrite fetchTokenInfo_from. repeat split.
Qed.

(** X12: when [fetchTokenInfo] runs twice in a row on one component, each run
    writes its own terminal envelope once and the envelope of the second run
    is the one that stays. *)
Theorem last_write_wins :
  forall (w1 w2 : World) (c : Component),
    let c2 := snd (fetchTokenInfo w2 (snd (fetchTokenInfo w1 c))) in
    authState c2 = envelope w2 /\
    writes (log c2) = (writes (log c) ++ [envelope w1; envelope w2])%list.
Proof.
  intros w1 w2 c. cbv zeta. rewrite !fetchTokenInfo_from.
  cbn [snd authState log].
  split; [reflexivity |].
  rewrite !writes_app, !writes_resolve, <- app_assoc. reflexivity.
Qed.

(** ** What the provider hands down *)

(** X13: [render] passes the children through and provides the current auth
    state: on a constructed component this is the default of the context
    (NONE), and once the mount has resolved it is the envelope of the run,
    SUCCESS or ERROR, the only one written; PENDING is never provided. *)
Theorem render_provides_resolution :
  forall (Children : Type) (ch : Children) (w : World),
    let before := render ch constructor in
    let after := render ch (snd (componentDidMount w constructor)) in
    value before = AuthContext_defaultValue /\
    value after = envelope w /\
    writes (log (snd (componentDidMount w constructor))) = [value after] /\
    isTerminal (value after) = true /\
    isPending (value before) = false /\
    children before = ch /\ children after = ch.
Proof.
  intros Children ch w. cbv zeta.
  change (componentDidMount w constructor) with (resolve w).
  unfold render. cbn [value children].
  change (authState (snd (resolve w))) with (envelope w).
  rewrite writes_resolve.
  destruct (resolve_shape w) as (a & calls & R & _ & Ht).
  rewrite (envelope_eq _ _ _ R). cbn.
  repeat split. exact Ht.
Qed.
